(** * ScriptedTool: the script-to-tool adapter of Tiled (src/tiled/scriptedtool.cpp)

    A shallow embedding of [Tiled::ScriptedTool].  The adapter forwards the
    tool events fired by the editor to optional callbacks stored on a script
    object.  Everything the adapter calls outside of its own file (the base
    classes [AbstractTileTool] / [AbstractTool], the plugin manager, the
    script manager and the JS engine) is recorded as an [Effect] in the order
    in which the C++ code performs the call. *)

From Stdlib Require Import ZArith String List Floats Bool Lia.
From stdpp Require Import base option gmap strings.
Import ListNotations.

Local Open Scope Z_scope.
Local Open Scope string_scope.

(** ** Host data *)

(** Addresses of QObjects (tools, editable maps) and of map scenes. *)
Definition QObjectRef := nat.
Definition MapScene := nat.

(** [static_cast<int>(flags)]: the flag word is an unsigned 32-bit integer,
    the cast re-reads it as a signed one. *)
Definition static_cast_int (z : Z) : Z := (z + 2 ^ 31) mod 2 ^ 32 - 2 ^ 31.

Module QPointF.
Record t := mk { x : float; y : float }.
End QPointF.

Module QPoint.
Record t := mk { x : Z; y : Z }.
End QPoint.

Module QKeyEvent.
Record t := mk { key : Z; modifiers : Z }.
End QKeyEvent.

Module QGraphicsSceneMouseEvent.
Record t := mk { button : Z; pos : QPointF.t; modifiers : Z }.
End QGraphicsSceneMouseEvent.

Module MapDocument.
(** Only [editable()] is used by the adapter's event handlers. *)
Record t := mk { editable : QObjectRef }.
End MapDocument.

(** ** Script values (QJSValue) *)

Unset Elimination Schemes.
Inductive JSValue : Type :=
| JSUndefined
| JSNull
| JSBool (b : bool)
| JSInt (n : Z)                       (* QJSValue(int) and QJSValue(uint) *)
| JSDouble (d : float)                (* QJSValue(double) *)
| JSString (s : string)
| JSError (message : string)          (* an Error object, e.g. an uncaught exception *)
| JSFunction (f : nat)
| JSObject (members : gmap string JSValue)
| JSQObject (target : QObjectRef) (prototype : JSValue).
Set Elimination Schemes.

Definition QJSValueList := list JSValue.

Definition isString (v : JSValue) : bool :=
  match v with JSString _ => true | _ => false end.

Definition isCallable (v : JSValue) : bool :=
  match v with JSFunction _ => true | _ => false end.

Definition isError (v : JSValue) : bool :=
  match v with JSError _ => true | _ => false end.

Definition isNull (v : JSValue) : bool :=
  match v with JSNull => true | _ => false end.

Definition isObject (v : JSValue) : bool :=
  match v with
  | JSError _ | JSFunction _ | JSObject _ | JSQObject _ _ => true
  | _ => false
  end.

(** [QJSValue::toString].  The adapter calls it on string values only, and
    the error reporter on error values; the remaining cases stand for the
    engine's conversions and are never reached. *)
Definition toString (v : JSValue) : string :=
  match v with
  | JSString s => s
  | JSError m => m
  | JSUndefined => "undefined"
  | JSNull => "null"
  | JSBool true => "true"
  | JSBool false => "false"
  | JSFunction _ => "function() { [code] }"
  | JSObject _ | JSQObject _ _ => "[object Object]"
  | JSInt _ | JSDouble _ => "[number]"
  end.

Definition isEmpty (s : string) : bool :=
  match s with EmptyString => true | _ => false end.

(** [QJSEngine::newQObject]: a fresh wrapper, no script-level prototype yet. *)
Definition newQObject (o : QObjectRef) : JSValue := JSQObject o JSNull.

(** [QJSValue::setPrototype]: does nothing unless the receiver is an object
    and the prototype is an object or null. *)
Definition setPrototype (self proto : JSValue) : JSValue :=
  match self with
  | JSQObject o _ => if isObject proto || isNull proto then JSQObject o proto else self
  | _ => self
  end.

(** ** Effects and the adapter's state *)

(** Calls into the base-class implementation of a virtual tool handler. *)
Inductive BaseCall : Type :=
| AbstractTileTool_activate (scene : MapScene)
| AbstractTileTool_deactivate (scene : MapScene)
| AbstractTileTool_mouseEntered
| AbstractTileTool_mouseLeft
| AbstractTileTool_mouseMoved (pos : QPointF.t) (modifiers : Z)
| AbstractTileTool_mapDocumentChanged (oldDocument newDocument : option MapDocument.t)
| AbstractTileTool_updateEnabledState
| AbstractTool_updateEnabledState.

Inductive Effect : Type :=
| Base (b : BaseCall)
| UpdateBrushVisibility
| CallWithInstance (methodName : string) (method self : JSValue)
                   (args : QJSValueList) (result : JSValue)
| CheckError (result : JSValue)        (* ScriptManager::checkError *)
| ThrowError (message : string)        (* ScriptManager::throwError *)
| AddObject (o : QObjectRef)           (* PluginManager::addObject *)
| RemoveObject (o : QObjectRef).       (* PluginManager::removeObject *)

Record ScriptedTool : Type := mkTool {
  this : QObjectRef;
  mName : string;
  mScene : option MapScene;
  mScriptObject : JSValue
}.

(** The receiver [call] builds for a tool: the wrapped tool, with the script
    object as its prototype. *)
Definition receiver (t : ScriptedTool) : JSValue :=
  setPrototype (newQObject (this t)) (mScriptObject t).

(** State of the tool, plus the effects performed, oldest first. *)
Definition M (A : Type) : Type := ScriptedTool -> A * ScriptedTool * list Effect.

#[export] Instance tool_ret : MRet M := fun A (a : A) t => (a, t, []).

#[export] Instance tool_bind : MBind M := fun A B (k : A -> M B) (m : M A) t =>
  let '(a, t1, l1) := m t in
  let '(b, t2, l2) := k a t1 in
  (b, t2, (l1 ++ l2)%list).

Definition emit (e : Effect) : M unit := fun t => (tt, t, [e]).
Definition getTool : M ScriptedTool := fun t => (t, t, []).
Definition setScene (s : option MapScene) : M unit :=
  fun t => (tt, mkTool (this t) (mName t) s (mScriptObject t), []).
Definition setName (n : string) : M unit :=
  fun t => (tt, mkTool (this t) n (mScene t) (mScriptObject t), []).

Definition result {A} (r : A * ScriptedTool * list Effect) : A := fst (fst r).
Definition tool {A} (r : A * ScriptedTool * list Effect) : ScriptedTool := snd (fst r).
Definition effects {A} (r : A * ScriptedTool * list Effect) : list Effect := snd r.

(** The events the editor fires at a tool. *)
Inductive ToolEvent : Type :=
| EvActivate (scene : MapScene)
| EvDeactivate (scene : MapScene)
| EvKeyPressed (keyEvent : QKeyEvent.t)
| EvMouseEntered
| EvMouseLeft
| EvMouseMoved (pos : QPointF.t) (modifiers : Z)
| EvMousePressed (event : QGraphicsSceneMouseEvent.t)
| EvMouseReleased (event : QGraphicsSceneMouseEvent.t)
| EvMouseDoubleClicked (event : QGraphicsSceneMouseEvent.t)
| EvModifiersChanged (modifiers : Z)
| EvLanguageChanged
| EvMapDocumentChanged (oldDocument newDocument : option MapDocument.t)
| EvTilePositionChanged (tilePos : QPoint.t)
| EvUpdateEnabledState.

(** ** The adapter *)

Section Adapter.

(** The JS engine, as far as the adapter relies on it: the scriptable
    members a QObject wrapper has of its own, and what invoking a function
    value on a receiver and an argument list returns (an [JSError] when the
    script throws).  What a callback does to the editor while it runs is the
    script's business and is not recorded. *)
Variable qmembers : QObjectRef -> string -> option JSValue.
Variable callWithInstance : JSValue -> JSValue -> QJSValueList -> JSValue.

(** [QJSValue::property]: own members first, then the prototype. *)
Fixpoint property (v : JSValue) (name : string) : JSValue :=
  match v with
  | JSObject members => default JSUndefined (members !! name)
  | JSQObject target prototype =>
      match qmembers target name with
      | Some m => m
      | None => property prototype name
      end
  | _ => JSUndefined
  end.

(** [ScriptedTool::call]; the declaration's default for [args] is the empty
    list, written out at each use. *)
Definition call (methodName : string) (args : QJSValueList) : M bool :=
  t ← getTool;
  let method := property (mScriptObject t) methodName in
  if isCallable method then
    let self := newQObject (this t) in
    (* Make whatever members were included in the original object available
       through the instance pointed to by 'this'. *)
    let self := setPrototype self (mScriptObject t) in
    let result := callWithInstance method self args in
    emit (CallWithInstance methodName method self args result);;
    emit (CheckError result);;
    mret true
  else
    mret false.

(** The constructor, run for the tool allocated at [addr]. *)
Definition newScriptedTool (object : JSValue) (addr : QObjectRef)
  : unit * ScriptedTool * list Effect :=
  (let nameProperty := property object "name" in
   (if isString nameProperty then
      let name := toString nameProperty in
      if negb (isEmpty name) then setName name else mret tt
    else mret tt);;
   emit (AddObject addr))
    (mkTool addr "<unnamed tool>" None object).

Definition deleteScriptedTool : M unit :=
  t ← getTool;
  emit (RemoveObject (this t)).

Definition activate (scene : MapScene) : M unit :=
  emit (Base (AbstractTileTool_activate scene));;
  setScene (Some scene);;
  call "activated" [];;
  mret tt.

Definition deactivate (scene : MapScene) : M unit :=
  emit (Base (AbstractTileTool_deactivate scene));;
  call "deactivated" [];;
  setScene None.

Definition keyPressed (keyEvent : QKeyEvent.t) : M unit :=
  let args := [] in
  let args := (args ++ [JSInt (QKeyEvent.key keyEvent)])%list in
  let args := (args ++ [JSInt (static_cast_int (QKeyEvent.modifiers keyEvent))])%list in
  call "keyPressed" args;;
  mret tt.

Definition mouseEntered : M unit :=
  emit (Base AbstractTileTool_mouseEntered);;
  call "mouseEntered" [];;
  mret tt.

Definition mouseLeft : M unit :=
  emit (Base AbstractTileTool_mouseLeft);;
  call "mouseEntered" [];;
  mret tt.

Definition mouseMoved (pos : QPointF.t) (modifiers : Z) : M unit :=
  emit (Base (AbstractTileTool_mouseMoved pos modifiers));;
  let args := [] in
  let args := (args ++ [JSDouble (QPointF.x pos)])%list in
  let args := (args ++ [JSDouble (QPointF.y pos)])%list in
  let args := (args ++ [JSInt (static_cast_int modifiers)])%list in
  call "mouseMoved" args;;
  mret tt.

Definition mousePressed (event : QGraphicsSceneMouseEvent.t) : M unit :=
  let args := [] in
  let args := (args ++ [JSInt (QGraphicsSceneMouseEvent.button event)])%list in
  let args := (args ++ [JSDouble (QPointF.x (QGraphicsSceneMouseEvent.pos event))])%list in
  let args := (args ++ [JSDouble (QPointF.y (QGraphicsSceneMouseEvent.pos event))])%list in
  let args :=
    (args ++ [JSInt (static_cast_int (QGraphicsSceneMouseEvent.modifiers event))])%list in
  call "mousePressed" args;;
  mret tt.

Definition mouseReleased (event : QGraphicsSceneMouseEvent.t) : M unit :=
  let args := [] in
  let args := (args ++ [JSInt (QGraphicsSceneMouseEvent.button event)])%list in
  let args := (args ++ [JSDouble (QPointF.x (QGraphicsSceneMouseEvent.pos event))])%list in
  let args := (args ++ [JSDouble (QPointF.y (QGraphicsSceneMouseEvent.pos event))])%list in
  let args :=
    (args ++ [JSInt (static_cast_int (QGraphicsSceneMouseEvent.modifiers event))])%list in
  call "mouseReleased" args;;
  mret tt.

Definition mouseDoubleClicked (event : QGraphicsSceneMouseEvent.t) : M unit :=
  let args := [] in
  let args := (args ++ [JSInt (QGraphicsSceneMouseEvent.button event)])%list in
  let args := (args ++ [JSDouble (QPointF.x (QGraphicsSceneMouseEvent.pos event))])%list in
  let args := (args ++ [JSDouble (QPointF.y (QGraphicsSceneMouseEvent.pos event))])%list in
  let args :=
    (args ++ [JSInt (static_cast_int (QGraphicsSceneMouseEvent.modifiers event))])%list in
  called ← call "mouseDoubleClicked" args;
  if negb called then mousePressed event else mret tt.

Definition modifiersChanged (modifiers : Z) : M unit :=
  let args := [] in
  let args := (args ++ [JSInt (static_cast_int modifiers)])%list in
  call "modifiersChanged" args;;
  mret tt.

Definition languageChanged : M unit :=
  call "languageChanged" [];;
  mret tt.

Definition populateToolBar : M unit := mret tt.

(** [tr] leaves the source text as it is when no translation is loaded. *)
Definition validateToolObject (value : JSValue) : bool * list Effect :=
  let nameProperty := property value "name" in
  if negb (isString nameProperty) then
    (false, [ThrowError "Invalid tool object (requires string 'name' property)"])
  else
    (true, []).

Definition mapDocumentChanged (oldDocument newDocument : option MapDocument.t) : M unit :=
  emit (Base (AbstractTileTool_mapDocumentChanged oldDocument newDocument));;
  let args := [] in
  let args := (args ++ [match oldDocument with
                        | Some d => newQObject (MapDocument.editable d)
                        | None => JSNull
                        end])%list in
  let args := (args ++ [match newDocument with
                        | Some d => newQObject (MapDocument.editable d)
                        | None => JSNull
                        end])%list in
  call "mapChanged" args;;
  mret tt.

Definition tilePositionChanged (tilePos : QPoint.t) : M unit :=
  let args := [] in
  let args := (args ++ [JSInt (QPoint.x tilePos)])%list in
  let args := (args ++ [JSInt (QPoint.y tilePos)])%list in
  call "tilePositionChanged" args;;
  mret tt.

Definition updateEnabledState : M unit :=
  called ← call "updateEnabledState" [];
  (if negb called then
     (* Skipping AbstractTileTool since we do not want the enabled state to
        automatically depend on any selected tile layers. *)
     emit (Base AbstractTool_updateEnabledState)
   else mret tt);;
  emit UpdateBrushVisibility.

(** Dispatch of an event to the handler the tool framework calls for it. *)
Definition handle (e : ToolEvent) : M unit :=
  match e with
  | EvActivate scene => activate scene
  | EvDeactivate scene => deactivate scene
  | EvKeyPressed keyEvent => keyPressed keyEvent
  | EvMouseEntered => mouseEntered
  | EvMouseLeft => mouseLeft
  | EvMouseMoved pos modifiers => mouseMoved pos modifiers
  | EvMousePressed event => mousePressed event
  | EvMouseReleased event => mouseReleased event
  | EvMouseDoubleClicked event => mouseDoubleClicked event
  | EvModifiersChanged modifiers => modifiersChanged modifiers
  | EvLanguageChanged => languageChanged
  | EvMapDocumentChanged oldDocument newDocument =>
      mapDocumentChanged oldDocument newDocument
  | EvTilePositionChanged tilePos => tilePositionChanged tilePos
  | EvUpdateEnabledState => updateEnabledState
  end.

End Adapter.

(** ** The specification's side *)

(** The hook of each event: the callback the script may define for it.  The
    mouse handlers' hooks carry the handler's own name. *)
Definition spec_hook (e : ToolEvent) : string :=
  match e with
  | EvActivate _ => "activated"
  | EvDeactivate _ => "deactivated"
  | EvKeyPressed _ => "keyPressed"
  | EvMouseEntered => "mouseEntered"
  | EvMouseLeft => "mouseLeft"
  | EvMouseMoved _ _ => "mouseMoved"
  | EvMousePressed _ => "mousePressed"
  | EvMouseReleased _ => "mouseReleased"
  | EvMouseDoubleClicked _ => "mouseDoubleClicked"
  | EvModifiersChanged _ => "modifiersChanged"
  | EvLanguageChanged => "languageChanged"
  | EvMapDocumentChanged _ _ => "mapChanged"
  | EvTilePositionChanged _ => "tilePositionChanged"
  | EvUpdateEnabledState => "updateEnabledState"
  end.

(** A map document as a script sees it: its editable wrapper, or null. *)
Definition spec_map (document : option MapDocument.t) : JSValue :=
  match document with
  | Some d => JSQObject (MapDocument.editable d) JSNull
  | None => JSNull
  end.

(** The modifier flags as the script receives them, a signed integer. *)
Definition spec_modifiers (modifiers : Z) : JSValue := JSInt (static_cast_int modifiers).

(** The argument shape of each event's hook. *)
Definition spec_args (e : ToolEvent) : QJSValueList :=
  match e with
  | EvKeyPressed k =>
      [JSInt (QKeyEvent.key k); spec_modifiers (QKeyEvent.modifiers k)]
  | EvMouseMoved pos modifiers =>
      [JSDouble (QPointF.x pos); JSDouble (QPointF.y pos); spec_modifiers modifiers]
  | EvMousePressed ev | EvMouseReleased ev | EvMouseDoubleClicked ev =>
      [JSInt (QGraphicsSceneMouseEvent.button ev);
       JSDouble (QPointF.x (QGraphicsSceneMouseEvent.pos ev));
       JSDouble (QPointF.y (QGraphicsSceneMouseEvent.pos ev));
       spec_modifiers (QGraphicsSceneMouseEvent.modifiers ev)]
  | EvModifiersChanged modifiers => [spec_modifiers modifiers]
  | EvTilePositionChanged p => [JSInt (QPoint.x p); JSInt (QPoint.y p)]
  | EvMapDocumentChanged oldDocument newDocument =>
      [spec_map oldDocument; spec_map newDocument]
  | EvActivate _ | EvDeactivate _ | EvMouseEntered | EvMouseLeft
  | EvLanguageChanged | EvUpdateEnabledState => []
  end.

(** The base-class handlers run, in order. *)
Definition baseCalls (l : list Effect) : list BaseCall :=
  omap (fun e => match e with Base b => Some b | _ => None end) l.

(** Modelled from the spec: the central script-error reporter behind
    [ScriptManager::checkError] and [ScriptManager::throwError] (scriptmanager.cpp
    is not part of the sources).  An error value handed to [checkError] and a
    message given to [throwError] are reported; any other value is not. *)
Definition reportedErrors (l : list Effect) : list string :=
  omap (fun e => match e with
                 | CheckError r => if isError r then Some (toString r) else None
                 | ThrowError m => Some m
                 | _ => None
                 end) l.

(** The base-class handlers the adapter runs for an event, given whether the
    event's callback was found. *)
Definition base_policy (e : ToolEvent) (callable : bool) : list BaseCall :=
  match e with
  | EvActivate scene => [AbstractTileTool_activate scene]
  | EvDeactivate scene => [AbstractTileTool_deactivate scene]
  | EvMouseEntered => [AbstractTileTool_mouseEntered]
  | EvMouseLeft => [AbstractTileTool_mouseLeft]
  | EvMouseMoved pos modifiers => [AbstractTileTool_mouseMoved pos modifiers]
  | EvMapDocumentChanged o n => [AbstractTileTool_mapDocumentChanged o n]
  | EvUpdateEnabledState => if callable then [] else [AbstractTool_updateEnabledState]
  | _ => []
  end.

(** The fallback rule read literally: a callable hook is run, and a
    base-class handler runs exactly when the hook is missing. *)
Definition callback_else_default
    (qmembers : QObjectRef -> string -> option JSValue)
    (callWithInstance : JSValue -> JSValue -> QJSValueList -> JSValue)
    (e : ToolEvent) (t : ScriptedTool) : Prop :=
  (isCallable (property qmembers (mScriptObject t) (spec_hook e)) = true ->
   exists self r,
     CallWithInstance (spec_hook e) (property qmembers (mScriptObject t) (spec_hook e))
       self (spec_args e) r
     ∈ effects (handle qmembers callWithInstance e t)) /\
  (baseCalls (effects (handle qmembers callWithInstance e t)) <> []
   <-> isCallable (property qmembers (mScriptObject t) (spec_hook e)) = false).

(** ** Sample scripts *)

Definition noMembers : QObjectRef -> string -> option JSValue := fun _ _ => None.

(** An engine in which every callback returns [undefined]. *)
Definition quietEngine : JSValue -> JSValue -> QJSValueList -> JSValue :=
  fun _ _ _ => JSUndefined.

(** An engine in which every callback throws. *)
Definition throwingEngine : JSValue -> JSValue -> QJSValueList -> JSValue :=
  fun _ _ _ => JSError "TypeError: tool is broken".

Definition stampScript : JSValue :=
  JSObject (<["name" := JSString "Stamp"]>
           (<["mouseMoved" := JSFunction 1]>
           (<["mousePressed" := JSFunction 2]>
           (<["mouseLeft" := JSFunction 3]>
           (<["updateEnabledState" := JSFunction 4]> ∅))))).

Definition clickScript : JSValue :=
  JSObject (<["name" := JSString ""]>
           (<["mouseDoubleClicked" := JSFunction 5]>
           (<["mousePressed" := JSFunction 6]>
           (<["mouseEntered" := JSFunction 7]> ∅)))).

Definition namelessScript : JSValue :=
  JSObject (<["name" := JSInt 7]> (<["keyPressed" := JSFunction 8]> ∅)).

Definition stampTool : ScriptedTool := mkTool 100%nat "Stamp" None stampScript.
Definition clickTool : ScriptedTool := mkTool 101%nat "<unnamed tool>" None clickScript.
Definition namelessTool : ScriptedTool := mkTool 102%nat "<unnamed tool>" None namelessScript.

Definition leftClick : QGraphicsSceneMouseEvent.t :=
  QGraphicsSceneMouseEvent.mk 1 (QPointF.mk 12.5%float 40%float) 0x04000000.

Definition leftClickArgs : QJSValueList :=
  [JSInt 1; JSDouble 12.5%float; JSDouble 40%float; JSInt 0x04000000].

Definition hover : ToolEvent := EvMouseMoved (QPointF.mk 3%float 4.25%float) 0x02000000.

Definition hoverArgs : QJSValueList :=
  [JSDouble 3%float; JSDouble 4.25%float; JSInt 0x02000000].

(** ** Sessions, and the editor state the adapter reads *)

Section Session.

Variable qmembers : QObjectRef -> string -> option JSValue.
Variable callWithInstance : JSValue -> JSValue -> QJSValueList -> JSValue.

(** The editor's event loop hands the tool one event after the other; each
    is handled to completion before the next. *)
Fixpoint handleAll (es : list ToolEvent) : M unit :=
  match es with
  | [] => mret tt
  | e :: es' => handle qmembers callWithInstance e;; handleAll es'
  end.

End Session.

(** The values the callbacks of a run returned, oldest first. *)
Definition callResults (l : list Effect) : list JSValue :=
  omap (fun e => match e with CallWithInstance _ _ _ _ r => Some r | _ => None end) l.

(** The messages of the error values among them. *)
Definition errorMessages (rs : list JSValue) : list string :=
  omap (fun r => if isError r then Some (toString r) else None) rs.

(** The plugin-manager calls of a run. *)
Definition isPluginCall (e : Effect) : bool :=
  match e with AddObject _ | RemoveObject _ => true | _ => false end.

(** The names of the hooks, one per event. *)
Definition hookNames : list string :=
  ["activated"; "deactivated"; "keyPressed"; "mouseEntered"; "mouseLeft";
   "mouseMoved"; "mousePressed"; "mouseReleased"; "mouseDoubleClicked";
   "modifiersChanged"; "languageChanged"; "mapChanged"; "tilePositionChanged";
   "updateEnabledState"].

(** The modifier flags an event carries, as an unsigned 32-bit word. *)
Definition eventModifiers (e : ToolEvent) : option Z :=
  match e with
  | EvKeyPressed k => Some (QKeyEvent.modifiers k)
  | EvMouseMoved _ modifiers => Some modifiers
  | EvMousePressed ev | EvMouseReleased ev | EvMouseDoubleClicked ev =>
      Some (QGraphicsSceneMouseEvent.modifiers ev)
  | EvModifiersChanged modifiers => Some modifiers
  | _ => None
  end.

Module Tile.
Record t := mk { id : Z; tileset : nat }.
End Tile.

Module EditableTileset.
(** [EditableTileset::tile(id)]: the editable wrapper of the tile with that
    id, a null pointer when the tileset has none. *)
Record t := mk { tile : Z -> option QObjectRef }.
End EditableTileset.

Module TilesetDocument.
Record t := mk { editable : EditableTileset.t }.
End TilesetDocument.

(** What the adapter reads from its base classes and from the registry of
    open tileset documents: [AbstractTool::mapDocument()],
    [AbstractTileTool::tile()] and [TilesetDocument::findDocumentForTileset]. *)
Record Host : Type := mkHost {
  mapDocument : option MapDocument.t;
  tile : option Tile.t;
  findDocumentForTileset : nat -> option TilesetDocument.t
}.

(** [ScriptedTool::editableMap]; a null pointer is [None]. *)
Definition editableMap (h : Host) : option QObjectRef :=
  match mapDocument h with
  | Some d => Some (MapDocument.editable d)
  | None => None
  end.

(** [ScriptedTool::editableTile]. *)
Definition editableTile (h : Host) : option QObjectRef :=
  match tile h with
  | Some t =>
      let tileset := Tile.tileset t in
      match findDocumentForTileset h tileset with
      | Some tilesetDocument =>
          let editable := TilesetDocument.editable tilesetDocument in
          EditableTileset.tile editable (Tile.id t)
      | None => None
      end
  | None => None
  end.

(** More sample data. *)
Definition idleScript : JSValue := JSObject (<["name" := JSString "Idle"]> ∅).
Definition idleTool : ScriptedTool := mkTool 103%nat "Idle" None idleScript.

Definition session : list ToolEvent :=
  [EvActivate 7%nat; EvMouseEntered; hover; EvMouseDoubleClicked leftClick;
   EvUpdateEnabledState; EvMouseLeft; EvDeactivate 7%nat].

Definition grassTile : Tile.t := Tile.mk 5 1%nat.

Definition openTilesets (tileset : nat) : option TilesetDocument.t :=
  match tileset with
  | 1%nat => Some (TilesetDocument.mk
                     (EditableTileset.mk (fun id => if (id =? 5)%Z then Some 55%nat else None)))
  | _ => None
  end.

Definition sampleHost : Host :=
  mkHost (Some (MapDocument.mk 40%nat)) (Some grassTile) openTilesets.

(** ** Facts about [call] and the handlers *)

(** Unfolding of [call], of the handlers, and of the mouse-press handler a
    double click may fall back to. *)
Ltac unfold_call :=
  unfold call, receiver, mbind, tool_bind, mret, tool_ret, getTool, emit.

Ltac unfold_handlers :=
  cbv beta iota zeta delta
    [handle activate deactivate keyPressed mouseEntered mouseLeft
     mouseMoved mouseReleased mouseDoubleClicked modifiersChanged
     languageChanged mapDocumentChanged tilePositionChanged updateEnabledState
     mbind tool_bind mret tool_ret emit setScene effects result tool].

Ltac unfold_press :=
  cbv beta iota zeta delta [mousePressed mbind tool_bind mret tool_ret emit setScene].

Section Facts.

Variable qmembers : QObjectRef -> string -> option JSValue.
Variable callWithInstance : JSValue -> JSValue -> QJSValueList -> JSValue.

Abbreviation property := (property qmembers).
Abbreviation call := (call qmembers callWithInstance).
Abbreviation handle := (handle qmembers callWithInstance).
Abbreviation mousePressed := (mousePressed qmembers callWithInstance).
Abbreviation mouseDoubleClicked := (mouseDoubleClicked qmembers callWithInstance).
Abbreviation updateEnabledState := (updateEnabledState qmembers callWithInstance).

(** What one run of [call] amounts to. *)
Lemma call_run (methodName : string) (args : QJSValueList) (t : ScriptedTool) :
  call methodName args t =
  let method := property (mScriptObject t) methodName in
  if isCallable method then
    (true, t,
     [CallWithInstance methodName method (receiver t) args
        (callWithInstance method (receiver t) args);
      CheckError (callWithInstance method (receiver t) args)])
  else (false, t, []).
Proof.
  unfold_call. cbn. destruct (isCallable (property (mScriptObject t) methodName)); reflexivity.
Qed.

(** Only objects have callable members. *)
Lemma callable_property_object (v : JSValue) (name : string) :
  isCallable (property v name) = true -> isObject v = true.
Proof. destruct v; cbn; intros H; try reflexivity; discriminate H. Qed.

Lemma receiver_callable (t : ScriptedTool) (name : string) :
  isCallable (property (mScriptObject t) name) = true ->
  receiver t = JSQObject (this t) (mScriptObject t).
Proof.
  intros H. apply callable_property_object in H.
  unfold receiver, newQObject, setPrototype. now rewrite H.
Qed.

(** Unfolds a handler down to its runs of [call] and settles each of them by
    cases on whether the property looked up is callable. *)
Ltac run_handler :=
  unfold_handlers;
  repeat (unfold_press;
          rewrite call_run; cbv zeta;
          let C := fresh "Hcallable" in
          match goal with
          | |- context [if isCallable ?v then _ else _] => destruct (isCallable v) eqn:C
          end;
          cbn [negb app fst snd]);
  unfold receiver;
  cbn [negb app fst snd this mName mScene mScriptObject] in *;
  repeat match goal with
         | |- context [setPrototype (newQObject (this ?t)) (mScriptObject ?t)] =>
             fold (receiver t)
         end.

(** Splits a membership in an explicit list of effects into its cases. *)
Ltac effect_cases H :=
  repeat match type of H with
         | _ ∈ [] => apply elem_of_nil in H; destruct H
         | _ ∈ _ :: _ =>
             apply elem_of_cons in H;
             let E := fresh "E" in
             destruct H as [E | H]; [simplify_eq E; intros; subst |]
         end.

(** The effects of a handler do not depend on the scene stored in the tool,
    and a handler leaves the tool's address and script object alone. *)
Lemma handle_keeps_script (e : ToolEvent) (t : ScriptedTool) :
  this (tool (handle e t)) = this t /\
  mScriptObject (tool (handle e t)) = mScriptObject t.
Proof. destruct e; run_handler; split; reflexivity. Qed.

(** Every callback run is followed at once by the error check of its result. *)
Lemma invoke_then_check (e : ToolEvent) (t : ScriptedTool)
    (n : string) (m self : JSValue) (args : QJSValueList) (r : JSValue) :
  CallWithInstance n m self args r ∈ effects (handle e t) ->
  exists l1 l2,
    effects (handle e t) = (l1 ++ CallWithInstance n m self args r :: CheckError r :: l2)%list.
Proof.
  destruct e; run_handler; intros H; effect_cases H;
    first [ eexists [], _; reflexivity | eexists [_], _; reflexivity ].
Qed.

(** What every callback run recorded while an event is handled looks like. *)
Lemma invoke_shape (e : ToolEvent) (t : ScriptedTool)
    (n : string) (m self : JSValue) (args : QJSValueList) (r : JSValue) :
  CallWithInstance n m self args r ∈ effects (handle e t) ->
  m = property (mScriptObject t) n /\ isCallable m = true /\
  self = receiver t /\ args = spec_args e /\ r = callWithInstance m self args.
Proof.
  destruct e; run_handler; intros H; effect_cases H;
    repeat split; try reflexivity; try assumption;
    by destruct oldDocument, newDocument.
Qed.

(** A checked error value shows up at the reporter. *)
Lemma checked_error_reported (l : list Effect) (r : JSValue) :
  CheckError r ∈ l -> isError r = true -> toString r ∈ reportedErrors l.
Proof.
  intros Hin Herr. unfold reportedErrors.
  apply list_elem_of_omap. exists (CheckError r). split; [exact Hin |].
  now rewrite Herr.
Qed.

(** C3: [validateToolObject] rejects every tool object whose [name] property
    is not a string, reporting the error message "Invalid tool object
    (requires string 'name' property)" and returning [false]; for every object
    whose [name] property is a string it returns [true] and reports nothing. *)
Theorem validateToolObject_requires_string_name (value : JSValue) :
  (isString (property value "name") = false ->
   fst (validateToolObject qmembers value) = false /\
   snd (validateToolObject qmembers value) =
     [ThrowError "Invalid tool object (requires string 'name' property)"] /\
   reportedErrors (snd (validateToolObject qmembers value)) =
     ["Invalid tool object (requires string 'name' property)"]) /\
  (isString (property value "name") = true ->
   fst (validateToolObject qmembers value) = true /\
   snd (validateToolObject qmembers value) = [] /\
   reportedErrors (snd (validateToolObject qmembers value)) = []).
Proof.
  unfold validateToolObject.
  split; intros H; rewrite H; cbn; repeat split.
Qed.

(** C4: [call] returns [true] exactly when the property of the given name is
    callable; when it is not, [call] returns [false], performs no effect at
    all, so reports no error, and leaves the tool as it was. *)
Theorem call_missing_callback_is_no_error
    (methodName : string) (args : QJSValueList) (t : ScriptedTool) :
  result (call methodName args t) = isCallable (property (mScriptObject t) methodName) /\
  (isCallable (property (mScriptObject t) methodName) = false ->
   result (call methodName args t) = false /\
   effects (call methodName args t) = [] /\
   reportedErrors (effects (call methodName args t)) = [] /\
   tool (call methodName args t) = t).
Proof.
  rewrite call_run. cbv zeta.
  destruct (isCallable (property (mScriptObject t) methodName)); split;
    try reflexivity; intros H; try discriminate H; repeat split.
Qed.

(** C5: whenever a callback is run while an event is handled, the value the
    run produced is handed to [ScriptManager::checkError] right after the run;
    so if that value is an error, it reaches the error reporter. *)
Theorem callback_result_is_checked (e : ToolEvent) (t : ScriptedTool)
    (n : string) (m self : JSValue) (args : QJSValueList) (r : JSValue) :
  CallWithInstance n m self args r ∈ effects (handle e t) ->
  r = callWithInstance m self args /\
  (exists l1 l2,
     effects (handle e t) =
     (l1 ++ CallWithInstance n m self args r :: CheckError r :: l2)%list) /\
  (isError r = true -> toString r ∈ reportedErrors (effects (handle e t))).
Proof.
  intros H.
  destruct (invoke_shape e t n m self args r H) as (_ & _ & _ & _ & Hr).
  destruct (invoke_then_check e t n m self args r H) as (l1 & l2 & Hl).
  split; [exact Hr |]. split; [by exists l1, l2 |].
  apply checked_error_reported. rewrite Hl.
  apply elem_of_app. right. apply elem_of_cons. right. apply elem_of_cons. by left.
Qed.

(** C6: every callback is run on a receiver that wraps the adapter itself and
    whose prototype is the script object; a property the wrapper does not
    have of its own is therefore looked up on the script object. *)
Theorem callback_receiver_wraps_adapter (e : ToolEvent) (t : ScriptedTool)
    (n : string) (m self : JSValue) (args : QJSValueList) (r : JSValue) :
  CallWithInstance n m self args r ∈ effects (handle e t) ->
  self = JSQObject (this t) (mScriptObject t) /\
  forall name : string,
    qmembers (this t) name = None ->
    property self name = property (mScriptObject t) name.
Proof.
  intros H.
  destruct (invoke_shape e t n m self args r H) as (Hm & Hc & Hs & _ & _).
  subst m. rewrite (receiver_callable t n Hc) in Hs. subst self.
  split; [reflexivity |]. intros name Hown. cbn. now rewrite Hown.
Qed.

(** The hook of an event is run when the script defines it (the mouse-leave
    event aside). *)
Lemma hook_invoked (e : ToolEvent) (t : ScriptedTool) :
  e <> EvMouseLeft ->
  isCallable (property (mScriptObject t) (spec_hook e)) = true ->
  CallWithInstance (spec_hook e) (property (mScriptObject t) (spec_hook e))
    (receiver t) (spec_args e)
    (callWithInstance (property (mScriptObject t) (spec_hook e)) (receiver t) (spec_args e))
  ∈ effects (handle e t).
Proof.
  intros Hne; destruct e; try (by destruct Hne); cbn [spec_hook spec_args];
    intros Hc; run_handler; try congruence;
    try destruct oldDocument; try destruct newDocument;
    repeat first [ apply list_elem_of_here | apply list_elem_of_further ].
Qed.


(** C8: without a callable [mouseDoubleClicked] property a double click is
    handled exactly as a mouse press with the same event, so a callable
    [mousePressed] is run instead; with a callable [mouseDoubleClicked]
    property that callback is run and [mousePressed] is not. *)
Theorem double_click_falls_back_to_press
    (event : QGraphicsSceneMouseEvent.t) (t : ScriptedTool) :
  (isCallable (property (mScriptObject t) "mouseDoubleClicked") = false ->
   mouseDoubleClicked event t = mousePressed event t /\
   (isCallable (property (mScriptObject t) "mousePressed") = true ->
    exists r,
      effects (mouseDoubleClicked event t) =
      [CallWithInstance "mousePressed" (property (mScriptObject t) "mousePressed")
         (receiver t) (spec_args (EvMousePressed event)) r;
       CheckError r])) /\
  (isCallable (property (mScriptObject t) "mouseDoubleClicked") = true ->
   (exists r,
      effects (mouseDoubleClicked event t) =
      [CallWithInstance "mouseDoubleClicked"
         (property (mScriptObject t) "mouseDoubleClicked")
         (receiver t) (spec_args (EvMouseDoubleClicked event)) r;
       CheckError r]) /\
   forall (m self : JSValue) (args : QJSValueList) (r : JSValue),
     CallWithInstance "mousePressed" m self args r ∉ effects (mouseDoubleClicked event t)).
Proof.
  split; intros Hdc.
  - split.
    + run_handler; congruence.
    + intros Hp. run_handler; try congruence. eexists. reflexivity.
  - run_handler; try congruence. split; [eexists; reflexivity |].
    intros m self args r H. effect_cases H.
Qed.

(** C9: the constructor accepts every script object: the tool is registered
    with the plugin manager and nothing else happens, in particular no error
    is raised; the tool takes the [name] property as its name when that is a
    non-empty string, and keeps "<unnamed tool>" when the property is missing,
    not a string, or the empty string. *)
Theorem constructor_never_rejects (object : JSValue) (addr : QObjectRef) :
  effects (newScriptedTool qmembers object addr) = [AddObject addr] /\
  this (tool (newScriptedTool qmembers object addr)) = addr /\
  mScriptObject (tool (newScriptedTool qmembers object addr)) = object /\
  (forall s : string,
     property object "name" = JSString s -> s <> "" ->
     mName (tool (newScriptedTool qmembers object addr)) = s) /\
  (isString (property object "name") = false \/ property object "name" = JSString "" ->
   mName (tool (newScriptedTool qmembers object addr)) = "<unnamed tool>").
Proof.
  unfold newScriptedTool, mbind, tool_bind, mret, tool_ret, emit, setName, effects, tool.
  destruct (property object "name") as [| | | | |s| | | |] eqn:Hname; cbn;
    repeat split; try (intros s' Hs; discriminate Hs);
    try (intros [Hs | Hs]; first [reflexivity | discriminate Hs]);
    destruct s; cbn; try reflexivity.
  - intros s' Hs Hne. injection Hs as <-. by destruct Hne.
  - intros s' Hs Hne. by injection Hs as <-.
  - intros [Hs | Hs]; discriminate Hs.
Qed.

(** C10: every enabled-state update ends with the brush-visibility update,
    whether or not the script has an [updateEnabledState] callback; without
    the callback the adapter falls back to [AbstractTool::updateEnabledState];
    [AbstractTileTool::updateEnabledState], which ties the enabled state to
    the selected tile layer, is never run. *)
Theorem updateEnabledState_skips_tile_tool_default (t : ScriptedTool) :
  (exists l,
     effects (updateEnabledState t) = (l ++ [UpdateBrushVisibility])%list /\
     UpdateBrushVisibility ∉ l) /\
  (isCallable (property (mScriptObject t) "updateEnabledState") = false ->
   effects (updateEnabledState t) =
     [Base AbstractTool_updateEnabledState; UpdateBrushVisibility]) /\
  (isCallable (property (mScriptObject t) "updateEnabledState") = true ->
   baseCalls (effects (updateEnabledState t)) = []) /\
  Base AbstractTileTool_updateEnabledState ∉ effects (updateEnabledState t).
Proof.
  run_handler; repeat split; try congruence; try reflexivity.
  - eexists [_; _]. split; [reflexivity |]. intros H. effect_cases H.
  - intros H. effect_cases H.
  - eexists [_]. split; [reflexivity |]. intros H. effect_cases H.
  - intros H. effect_cases H.
Qed.

(** C2, as amended: which base-class handlers run for an event is fixed by
    the event, not by a missing callback: the [AbstractTileTool] handler runs
    every time for activation, deactivation, mouse enter, mouse leave, mouse
    move and map change; no base-class handler runs for key press, mouse
    press, release and double click, modifier change, language change and
    tile-position change; only for the enabled-state update does a default
    ([AbstractTool]'s) run exactly when the callback is missing.  And for
    every event but mouse leave, a callable hook of that event is run, on
    the event's argument list. *)
Theorem base_handlers_follow_policy (e : ToolEvent) (t : ScriptedTool) :
  baseCalls (effects (handle e t)) =
    base_policy e (isCallable (property (mScriptObject t) (spec_hook e))) /\
  (e <> EvMouseLeft ->
   isCallable (property (mScriptObject t) (spec_hook e)) = true ->
   exists self r,
     CallWithInstance (spec_hook e) (property (mScriptObject t) (spec_hook e))
       self (spec_args e) r ∈ effects (handle e t)).
Proof.
  split.
  - destruct e; cbn [spec_hook base_policy]; run_handler; try reflexivity;
      rewrite Hcallable; reflexivity.
  - intros Hne Hc. eexists _, _. by apply hook_invoked.
Qed.

(** The mouse-leave handler looks up the mouse-enter hook. *)
Lemma mouseLeft_looks_up_mouseEntered (t : ScriptedTool) :
  effects (handle EvMouseLeft t) =
  Base AbstractTileTool_mouseLeft :: effects (call "mouseEntered" [] t).
Proof. run_handler; reflexivity. Qed.

(** ** Further facts: single events *)

(** Handling one event runs at most one script callback. *)
Lemma event_callbacks_le_1 (e : ToolEvent) (t : ScriptedTool) :
  (length (callResults (effects (handle e t))) <= 1)%nat.
Proof. destruct e; run_handler; cbn; lia. Qed.

(** X2: within one event, a base-class handler never runs after the script
    callback: wherever both occur, the base-class call comes first. *)
Theorem base_handler_precedes_callback (e : ToolEvent) (t : ScriptedTool)
    (i j : nat) (b : BaseCall)
    (n : string) (m self : JSValue) (args : QJSValueList) (r : JSValue) :
  effects (handle e t) !! i = Some (Base b) ->
  effects (handle e t) !! j = Some (CallWithInstance n m self args r) ->
  (i < j)%nat.
Proof.
  destruct e; run_handler;
    destruct i as [|[|[|[|i]]]]; destruct j as [|[|[|[|j]]]]; cbn;
    intros Hi Hj; try discriminate Hi; try discriminate Hj; lia.
Qed.


(** The cast of a 32-bit flag word to [int]. *)
Lemma static_cast_int_word (z : Z) :
  (0 <= z < 2 ^ 32)%Z ->
  static_cast_int z = (if (z <? 2 ^ 31)%Z then z else z - 2 ^ 32)%Z.
Proof.
  intros Hz. unfold static_cast_int.
  destruct (Z.ltb_spec z (2 ^ 31)) as [Hlt | Hge].
  - rewrite Z.mod_small by lia. lia.
  - replace (z + 2 ^ 31)%Z with ((z - 2 ^ 31) + 1 * 2 ^ 32)%Z by lia.
    rewrite Z.mod_add by lia. rewrite Z.mod_small by lia. lia.
Qed.

(** X4: whenever an event carries modifier flags, they are the last argument
    of the callback, as a signed 32-bit integer: the flag word itself when it
    is below 2^31, and the word minus 2^32 (a negative number) when bit 31 is
    set. *)
Theorem modifiers_are_last_argument (e : ToolEvent) (t : ScriptedTool) (modifiers : Z)
    (n : string) (m self : JSValue) (args : QJSValueList) (r : JSValue) :
  eventModifiers e = Some modifiers ->
  (0 <= modifiers < 2 ^ 32)%Z ->
  CallWithInstance n m self args r ∈ effects (handle e t) ->
  last args = Some (JSInt (if (modifiers <? 2 ^ 31)%Z then modifiers
                           else modifiers - 2 ^ 32)%Z).
Proof.
  intros He Hm H.
  destruct (invoke_shape e t n m self args r H) as (_ & _ & _ & -> & _).
  rewrite <- (static_cast_int_word modifiers Hm).
  destruct e; cbn in He; try discriminate He; injection He as <-; reflexivity.
Qed.

(** ** Further facts: sessions *)

Abbreviation handleAll := (handleAll qmembers callWithInstance).

Lemma handleAll_cons (e : ToolEvent) (es : list ToolEvent) (t : ScriptedTool) :
  effects (handleAll (e :: es) t) =
    (effects (handle e t) ++ effects (handleAll es (tool (handle e t))))%list /\
  tool (handleAll (e :: es) t) = tool (handleAll es (tool (handle e t))).
Proof.
  change (handleAll (e :: es)) with (handle e;; handleAll es).
  unfold mbind, tool_bind, effects, tool.
  destruct (handle e t) as [[u t1] l1]. cbn [fst snd].
  destruct (handleAll es t1) as [[b t2] l2]. split; reflexivity.
Qed.

Lemma handleAll_keeps (es : list ToolEvent) (t : ScriptedTool) :
  this (tool (handleAll es t)) = this t.
Proof.
  revert t. induction es as [| e es IH]; intros t; [reflexivity |].
  destruct (handleAll_cons e es t) as [_ ->].
  rewrite IH. by destruct (handle_keeps_script e t) as [-> _].
Qed.

Lemma handle_reports_callback_errors (e : ToolEvent) (t : ScriptedTool) :
  reportedErrors (effects (handle e t)) = errorMessages (callResults (effects (handle e t))).
Proof. destruct e; run_handler; cbn; try reflexivity; by destruct (isError _). Qed.

Lemma handle_no_plugin_call (e : ToolEvent) (t : ScriptedTool) (x : Effect) :
  x ∈ effects (handle e t) -> isPluginCall x = false.
Proof. destruct e; run_handler; intros H; effect_cases H; reflexivity. Qed.

(** Every event's hook is among the hook names. *)
Lemma spec_hook_in_hookNames (e : ToolEvent) : spec_hook e ∈ hookNames.
Proof.
  destruct e; unfold hookNames; cbn [spec_hook];
    repeat first [apply list_elem_of_here | apply list_elem_of_further].
Qed.

Lemma handle_without_callbacks (e : ToolEvent) (t : ScriptedTool) :
  (forall n : string, n ∈ hookNames -> isCallable (property (mScriptObject t) n) = false) ->
  callResults (effects (handle e t)) = [] /\
  reportedErrors (effects (handle e t)) = [] /\
  baseCalls (effects (handle e t)) = base_policy e false.
Proof.
  intros Hidle. destruct e; run_handler;
    try match goal with
        | H : isCallable (property _ ?n) = true |- _ =>
            rewrite (Hidle n) in H;
            [ discriminate H
            | unfold hookNames;
              repeat first [apply list_elem_of_here | apply list_elem_of_further] ]
        end;
    repeat split; reflexivity.
Qed.

(** X6: over a whole session the errors that reach the reporter are exactly
    the error values the callbacks returned, in the order of the calls: no
    error is lost and the handlers raise none of their own. *)
Theorem session_errors_are_callback_errors (es : list ToolEvent) (t : ScriptedTool) :
  reportedErrors (effects (handleAll es t)) =
  errorMessages (callResults (effects (handleAll es t))).
Proof.
  revert t. induction es as [| e es IH]; intros t; [reflexivity |].
  destruct (handleAll_cons e es t) as [-> _].
  unfold reportedErrors, errorMessages, callResults in *.
  rewrite !omap_app. rewrite <- IH.
  f_equal. apply handle_reports_callback_errors.
Qed.

(** X7: a session of [n] events runs at most [n] callbacks: one event never
    runs two, and a double click runs its own hook or the mouse-press hook,
    not both. *)
Theorem session_callbacks_bounded (es : list ToolEvent) (t : ScriptedTool) :
  (length (callResults (effects (handleAll es t))) <= length es)%nat.
Proof.
  revert t. induction es as [| e es IH]; intros t; [cbn; lia |].
  destruct (handleAll_cons e es t) as [-> _].
  unfold callResults in *. rewrite omap_app, length_app.
  specialize (IH (tool (handle e t))).
  pose proof (event_callbacks_le_1 e t) as H1. unfold callResults in H1.
  cbn [length]. lia.
Qed.

(** X8: the destructor unregisters exactly the object the constructor
    registered, whatever events were handled in between, and no handler
    touches the plugin manager. *)
Theorem tool_lifecycle_is_balanced
    (object : JSValue) (addr : QObjectRef) (es : list ToolEvent) :
  effects (newScriptedTool qmembers object addr) = [AddObject addr] /\
  (forall x : Effect,
     x ∈ effects (handleAll es (tool (newScriptedTool qmembers object addr))) ->
     isPluginCall x = false) /\
  effects (deleteScriptedTool
             (tool (handleAll es (tool (newScriptedTool qmembers object addr))))) =
    [RemoveObject addr].
Proof.
  set (t0 := tool (newScriptedTool qmembers object addr)).
  assert (Hthis : this t0 = addr).
  { unfold t0, newScriptedTool, mbind, tool_bind, mret, tool_ret, emit, setName, tool.
    destruct (isString _); [destruct (negb _) |]; reflexivity. }
  split; [| split].
  - unfold newScriptedTool, mbind, tool_bind, mret, tool_ret, emit, setName, effects.
    destruct (isString _); [destruct (negb _) |]; reflexivity.
  - generalize t0. induction es as [| e es IH]; intros t x H.
    + cbn in H. by apply elem_of_nil in H.
    + destruct (handleAll_cons e es t) as [Heff _]. rewrite Heff in H.
      apply elem_of_app in H as [H | H]; [by eapply handle_no_plugin_call | by eapply IH].
  - unfold deleteScriptedTool, mbind, tool_bind, getTool, emit, effects. cbn.
    rewrite (handleAll_keeps es t0). by rewrite Hthis.
Qed.


(** X10: a script object on which none of the hook names is a callable
    member makes the tool a plain tool: over a whole session no callback
    runs, no error is reported, and the base-class handlers run as for
    missing callbacks. *)
Theorem session_without_callbacks (es : list ToolEvent) (t : ScriptedTool) :
  (forall n : string, n ∈ hookNames -> isCallable (property (mScriptObject t) n) = false) ->
  callResults (effects (handleAll es t)) = [] /\
  reportedErrors (effects (handleAll es t)) = [] /\
  baseCalls (effects (handleAll es t)) = flat_map (fun e => base_policy e false) es.
Proof.
  revert t. induction es as [| e es IH]; intros t Hidle; [repeat split |].
  destruct (handleAll_cons e es t) as [-> _].
  destruct (handle_without_callbacks e t Hidle) as (Hc & Hr & Hb).
  destruct (IH (tool (handle e t))) as (IHc & IHr & IHb).
  { destruct (handle_keeps_script e t) as [_ ->]. exact Hidle. }
  unfold callResults, reportedErrors, baseCalls in *.
  rewrite !omap_app, Hc, Hr, Hb, IHc, IHr, IHb. repeat split.
Qed.

(** ** Further facts: registration and editor state *)

(** X11: an object that passes [validateToolObject] has a string [name]; the
    tool built from it carries that name, except that the empty string, which
    the validation accepts, leaves the tool with "<unnamed tool>". *)
Theorem validated_object_names_tool (object : JSValue) (addr : QObjectRef) :
  fst (validateToolObject qmembers object) = true ->
  exists s : string,
    property object "name" = JSString s /\
    mName (tool (newScriptedTool qmembers object addr)) =
      (if isEmpty s then "<unnamed tool>" else s).
Proof.
  unfold validateToolObject, newScriptedTool, mbind, tool_bind, mret, tool_ret,
    emit, setName, tool.
  destruct (property object "name") as [| | | | |s| | | |]; cbn; try discriminate.
  intros _. exists s. split; [reflexivity |]. by destruct s.
Qed.

(** X12: when the editor announces the document it has just made current,
    the new-map argument of [mapChanged] is the wrapper of the very object
    [editableMap] returns, and null exactly when [editableMap] is null. *)
Theorem mapChanged_passes_editableMap
    (h : Host) (oldDocument : option MapDocument.t) (t : ScriptedTool) :
  isCallable (property (mScriptObject t) "mapChanged") = true ->
  exists (old r : JSValue),
    effects (handle (EvMapDocumentChanged oldDocument (mapDocument h)) t) =
    [Base (AbstractTileTool_mapDocumentChanged oldDocument (mapDocument h));
     CallWithInstance "mapChanged" (property (mScriptObject t) "mapChanged") (receiver t)
       [old; match editableMap h with
             | Some map => newQObject map
             | None => JSNull
             end] r;
     CheckError r].
Proof.
  intros Hc. run_handler; [| congruence].
  unfold editableMap. destruct (mapDocument h); eexists _, _; reflexivity.
Qed.

End Facts.

(** X13: [editableTile] is null when no tile is selected and when the
    selected tile's tileset is not open in any tileset document; a non-null
    result is the editable tile that the document of the selected tile's
    tileset holds under the selected tile's id. *)
Theorem editableTile_follows_selected_tile (h : Host) :
  (tile h = None -> editableTile h = None) /\
  (forall t : Tile.t,
     tile h = Some t -> findDocumentForTileset h (Tile.tileset t) = None ->
     editableTile h = None) /\
  (forall q : QObjectRef,
     editableTile h = Some q ->
     exists (t : Tile.t) (d : TilesetDocument.t),
       tile h = Some t /\
       findDocumentForTileset h (Tile.tileset t) = Some d /\
       EditableTileset.tile (TilesetDocument.editable d) (Tile.id t) = Some q).
Proof.
  unfold editableTile. repeat split.
  - by intros ->.
  - by intros t -> ->.
  - intros q. destruct (tile h) as [t |]; [| discriminate].
    cbn zeta. destruct (findDocumentForTileset h (Tile.tileset t)) as [d |] eqn:Hd;
      [| discriminate].
    intros Hq. by exists t, d.
Qed.

(** ** Concrete runs *)

(** C1: on a script that defines a [mouseLeft] hook and no [mouseEntered]
    hook, a mouse-leave event runs no callback at all; on a script that
    defines [mouseEntered], a mouse-leave event runs that hook. *)
Theorem mouseLeft_runs_mouseEntered_hook :
  isCallable (property noMembers stampScript (spec_hook EvMouseLeft)) = true /\
  effects (handle noMembers quietEngine EvMouseLeft stampTool) =
    [Base AbstractTileTool_mouseLeft] /\
  effects (handle noMembers quietEngine EvMouseLeft clickTool) =
    [Base AbstractTileTool_mouseLeft;
     CallWithInstance "mouseEntered" (JSFunction 7) (JSQObject 101%nat clickScript) []
       JSUndefined;
     CheckError JSUndefined].
Proof. repeat split; vm_compute; reflexivity. Qed.

(** C2, as stated, fails: on a mouse move the [AbstractTileTool] handler runs
    although the script's [mouseMoved] callback is found and run. *)
Lemma default_runs_beside_callback :
  ~ callback_else_default noMembers quietEngine hover stampTool.
Proof.
  intros [_ [Hdefault _]].
  assert (Hran : baseCalls (effects (handle noMembers quietEngine hover stampTool)) <> [])
    by (vm_compute; discriminate).
  specialize (Hdefault Hran). vm_compute in Hdefault. discriminate Hdefault.
Qed.

(** Nor does a default run where the callback is missing: a key press on a
    script without [keyPressed] does nothing. *)
Example key_press_without_callback :
  effects (handle noMembers quietEngine (EvKeyPressed (QKeyEvent.mk 65 0)) stampTool) = [].
Proof. vm_compute. reflexivity. Qed.

Lemma base_handlers_follow_policy_witness :
  baseCalls (effects (handle noMembers quietEngine hover stampTool)) =
    [AbstractTileTool_mouseMoved (QPointF.mk 3%float 4.25%float) 0x02000000] /\
  exists self r,
    CallWithInstance "mouseMoved" (JSFunction 1) self hoverArgs r
    ∈ effects (handle noMembers quietEngine hover stampTool).
Proof.
  destruct (base_handlers_follow_policy noMembers quietEngine hover stampTool)
    as [Hbase Hhook].
  split.
  - rewrite Hbase. vm_compute. reflexivity.
  - apply Hhook; [discriminate | vm_compute; reflexivity].
Defined.

Lemma validateToolObject_requires_string_name_witness :
  fst (validateToolObject noMembers namelessScript) = false /\
  reportedErrors (snd (validateToolObject noMembers namelessScript)) =
    ["Invalid tool object (requires string 'name' property)"] /\
  fst (validateToolObject noMembers clickScript) = true /\
  snd (validateToolObject noMembers clickScript) = [].
Proof.
  destruct (validateToolObject_requires_string_name noMembers namelessScript)
    as [Hbad _].
  destruct (validateToolObject_requires_string_name noMembers clickScript)
    as [_ Hgood].
  destruct Hbad as (H1 & _ & H2); [vm_compute; reflexivity |].
  destruct Hgood as (H3 & H4 & _); [vm_compute; reflexivity |].
  repeat split; assumption.
Defined.

Lemma call_missing_callback_is_no_error_witness :
  result (call noMembers throwingEngine "mouseMoved" hoverArgs namelessTool) = false /\
  reportedErrors (effects (call noMembers throwingEngine "mouseMoved" hoverArgs namelessTool))
    = [].
Proof.
  destruct (call_missing_callback_is_no_error noMembers throwingEngine
              "mouseMoved" hoverArgs namelessTool) as [_ Hmissing].
  destruct Hmissing as (H1 & _ & H2 & _); [vm_compute; reflexivity |].
  split; assumption.
Defined.

Lemma callback_result_is_checked_witness :
  "TypeError: tool is broken"
  ∈ reportedErrors (effects (handle noMembers throwingEngine hover stampTool)).
Proof.
  destruct (callback_result_is_checked noMembers throwingEngine hover stampTool
              "mouseMoved" (JSFunction 1) (JSQObject 100%nat stampScript) hoverArgs
              (JSError "TypeError: tool is broken")) as (_ & _ & Hreported).
  - vm_compute. apply list_elem_of_further, list_elem_of_here.
  - apply Hreported. reflexivity.
Defined.

Lemma callback_receiver_wraps_adapter_witness :
  property noMembers (JSQObject 100%nat stampScript) "name" = JSString "Stamp".
Proof.
  destruct (callback_receiver_wraps_adapter noMembers quietEngine hover stampTool
              "mouseMoved" (JSFunction 1) (JSQObject 100%nat stampScript) hoverArgs
              JSUndefined) as [_ Hlookup].
  - vm_compute. apply list_elem_of_further, list_elem_of_here.
  - rewrite Hlookup; [vm_compute; reflexivity | reflexivity].
Defined.


Lemma double_click_falls_back_to_press_witness :
  mouseDoubleClicked noMembers quietEngine leftClick stampTool =
    mousePressed noMembers quietEngine leftClick stampTool /\
  (exists r,
     effects (mouseDoubleClicked noMembers quietEngine leftClick stampTool) =
     [CallWithInstance "mousePressed" (JSFunction 2) (JSQObject 100%nat stampScript)
        leftClickArgs r;
      CheckError r]) /\
  forall (m self : JSValue) (args : QJSValueList) (r : JSValue),
    CallWithInstance "mousePressed" m self args r
    ∉ effects (mouseDoubleClicked noMembers quietEngine leftClick clickTool).
Proof.
  destruct (double_click_falls_back_to_press noMembers quietEngine leftClick stampTool)
    as [Hfallback _].
  destruct (double_click_falls_back_to_press noMembers quietEngine leftClick clickTool)
    as [_ Hown].
  destruct Hfallback as [Hsame Hpress]; [vm_compute; reflexivity |].
  destruct Hown as [_ Hnone]; [vm_compute; reflexivity |].
  destruct Hpress as [r Hr]; [vm_compute; reflexivity |].
  split; [exact Hsame |]. split; [| exact Hnone].
  exists r. rewrite Hr. vm_compute. reflexivity.
Defined.

Lemma constructor_never_rejects_witness :
  mName (tool (newScriptedTool noMembers stampScript 100%nat)) = "Stamp" /\
  mName (tool (newScriptedTool noMembers clickScript 101%nat)) = "<unnamed tool>" /\
  mName (tool (newScriptedTool noMembers namelessScript 102%nat)) = "<unnamed tool>".
Proof.
  destruct (constructor_never_rejects noMembers stampScript 100%nat)
    as (_ & _ & _ & Hnamed & _).
  destruct (constructor_never_rejects noMembers clickScript 101%nat)
    as (_ & _ & _ & _ & Hempty).
  destruct (constructor_never_rejects noMembers namelessScript 102%nat)
    as (_ & _ & _ & _ & Hnumber).
  split; [| split].
  - apply Hnamed; [vm_compute; reflexivity | discriminate].
  - apply Hempty. right. vm_compute. reflexivity.
  - apply Hnumber. left. vm_compute. reflexivity.
Defined.

Lemma updateEnabledState_skips_tile_tool_default_witness :
  effects (updateEnabledState noMembers quietEngine clickTool) =
    [Base AbstractTool_updateEnabledState; UpdateBrushVisibility] /\
  baseCalls (effects (updateEnabledState noMembers quietEngine stampTool)) = [].
Proof.
  destruct (updateEnabledState_skips_tile_tool_default noMembers quietEngine clickTool)
    as (_ & Hmissing & _ & _).
  destruct (updateEnabledState_skips_tile_tool_default noMembers quietEngine stampTool)
    as (_ & _ & Hfound & _).
  split.
  - apply Hmissing. vm_compute. reflexivity.
  - apply Hfound. vm_compute. reflexivity.
Defined.

(** ** Concrete runs of the further facts *)

Lemma base_handler_precedes_callback_witness : (0 < 1)%nat.
Proof.
  apply (base_handler_precedes_callback noMembers quietEngine hover stampTool 0 1
           (AbstractTileTool_mouseMoved (QPointF.mk 3%float 4.25%float) 0x02000000)
           "mouseMoved" (JSFunction 1) (JSQObject 100%nat stampScript) hoverArgs
           JSUndefined);
    vm_compute; reflexivity.
Defined.


Lemma modifiers_are_last_argument_witness :
  last leftClickArgs = Some (JSInt 0x04000000) /\
  last [JSInt (-33554432)] = Some (JSInt (-33554432)).
Proof.
  split.
  - apply (modifiers_are_last_argument noMembers quietEngine (EvMousePressed leftClick)
             stampTool 0x04000000 "mousePressed" (JSFunction 2)
             (JSQObject 100%nat stampScript) leftClickArgs JSUndefined).
    + reflexivity.
    + lia.
    + vm_compute. apply list_elem_of_here.
  - (* a flag word with bit 31 set reaches the script as a negative number *)
    apply (modifiers_are_last_argument noMembers quietEngine
             (EvModifiersChanged 0xfe000000)
             (mkTool 1%nat "t" None (JSObject (<["modifiersChanged" := JSFunction 9]> ∅)))
             0xfe000000 "modifiersChanged" (JSFunction 9)
             (JSQObject 1%nat (JSObject (<["modifiersChanged" := JSFunction 9]> ∅)))
             [JSInt (-33554432)] JSUndefined).
    + reflexivity.
    + lia.
    + vm_compute. apply list_elem_of_here.
Defined.

Lemma tool_lifecycle_is_balanced_witness :
  isPluginCall (Base AbstractTileTool_mouseEntered) = false.
Proof.
  destruct (tool_lifecycle_is_balanced noMembers quietEngine stampScript 100%nat session)
    as (_ & Hnone & _).
  apply Hnone. vm_compute.
  repeat first [apply list_elem_of_here | apply list_elem_of_further].
Defined.

Lemma idleScript_has_no_callbacks (n : string) :
  n ∈ hookNames -> isCallable (property noMembers (mScriptObject idleTool) n) = false.
Proof.
  unfold hookNames. intros Hn.
  repeat (apply elem_of_cons in Hn; destruct Hn as [-> | Hn]; [vm_compute; reflexivity |]).
  by apply elem_of_nil in Hn.
Defined.

Lemma session_without_callbacks_witness :
  callResults (effects (handleAll noMembers throwingEngine session idleTool)) = [] /\
  reportedErrors (effects (handleAll noMembers throwingEngine session idleTool)) = [] /\
  baseCalls (effects (handleAll noMembers throwingEngine session idleTool)) =
    [AbstractTileTool_activate 7%nat; AbstractTileTool_mouseEntered;
     AbstractTileTool_mouseMoved (QPointF.mk 3%float 4.25%float) 0x02000000;
     AbstractTool_updateEnabledState; AbstractTileTool_mouseLeft;
     AbstractTileTool_deactivate 7%nat].
Proof.
  exact (session_without_callbacks noMembers throwingEngine session idleTool
           idleScript_has_no_callbacks).
Defined.

Lemma validated_object_names_tool_witness :
  exists s : string,
    property noMembers clickScript "name" = JSString s /\
    mName (tool (newScriptedTool noMembers clickScript 101%nat)) =
      (if isEmpty s then "<unnamed tool>" else s).
Proof.
  apply (validated_object_names_tool noMembers clickScript 101%nat).
  vm_compute. reflexivity.
Defined.

Lemma mapChanged_passes_editableMap_witness :
  exists (old r : JSValue),
    effects (handle noMembers quietEngine
               (EvMapDocumentChanged None (mapDocument sampleHost))
               (mkTool 1%nat "t" None (JSObject (<["mapChanged" := JSFunction 9]> ∅)))) =
    [Base (AbstractTileTool_mapDocumentChanged None (mapDocument sampleHost));
     CallWithInstance "mapChanged" (JSFunction 9)
       (JSQObject 1%nat (JSObject (<["mapChanged" := JSFunction 9]> ∅)))
       [old; JSQObject 40%nat JSNull] r;
     CheckError r].
Proof.
  destruct (mapChanged_passes_editableMap noMembers quietEngine sampleHost None
              (mkTool 1%nat "t" None (JSObject (<["mapChanged" := JSFunction 9]> ∅))))
    as (old & r & Heff).
  - vm_compute. reflexivity.
  - exists old, r. rewrite Heff. vm_compute. reflexivity.
Defined.

Lemma editableTile_follows_selected_tile_witness :
  editableTile (mkHost None None openTilesets) = None /\
  editableTile (mkHost None (Some (Tile.mk 5 2%nat)) openTilesets) = None /\
  exists (t : Tile.t) (d : TilesetDocument.t),
    tile sampleHost = Some t /\
    findDocumentForTileset sampleHost (Tile.tileset t) = Some d /\
    EditableTileset.tile (TilesetDocument.editable d) (Tile.id t) = Some 55%nat.
Proof.
  destruct (editableTile_follows_selected_tile (mkHost None None openTilesets))
    as (Hnone & _ & _).
  destruct (editableTile_follows_selected_tile
              (mkHost None (Some (Tile.mk 5 2%nat)) openTilesets)) as (_ & Hclosed & _).
  destruct (editableTile_follows_selected_tile sampleHost) as (_ & _ & Hsome).
  split; [apply Hnone; reflexivity |].
  split; [apply (Hclosed (Tile.mk 5 2%nat)); reflexivity |].
  apply Hsome. reflexivity.
Defined.
